(** * Falcor light sources: Framework/Source/Graphics/Light.h

  A shallow embedding of the light classes declared in [Light.h]
  (Light, DirectionalLight, PointLight, SpotLight and the [#if 0]'d
  AreaLight) and the properties of their inline members.

  Objects are records, a [void] member function is a function from the
  object's state to its new state, a [const] member is a projection.
  [float] is IEEE binary32, [vec3] three of them, [std::string] a
  [string]. *)

From Stdlib Require Import ZArith List String Bool Lia.
From Stdlib Require Import Floats.SpecFloat.
Import ListNotations.

Local Open Scope Z_scope.

(** ** [float]: IEEE 754 binary32 *)

Module F32.

(** 24 bits of precision, exponents below 128. *)
Definition prec : Z := 24.
Definition emax : Z := 128.

(** A value is a signed zero, a signed infinity, a finite number or a NaN.
    The NaNs are one value here: the sign bit and the payload of a NaN,
    and so the difference between a quiet and a signalling NaN, are not
    represented. *)
Definition float : Type := spec_float.

(** [a * b], rounded to nearest even. *)
Definition mul (a b : float) : float := SFmul prec emax a b.

(** The literal [n.0f] for an integer [n]. *)
Definition of_Z (n : Z) : float := binary_normalize prec emax n 0 false.

Definition zero : float := of_Z 0.
Definition one : float := of_Z 1.

(** [a <= b] as C++ evaluates it: false as soon as one side is a NaN. *)
Definition leb (a b : float) : bool := SFleb a b.

End F32.

Abbreviation float := F32.float.

(** ** [glm::vec3] *)

Record vec3 : Type := mkVec3 { vx : float; vy : float; vz : float }.

(** [vec3(s)]: the scalar in every component. *)
Definition vec3_splat (s : float) : vec3 := mkVec3 s s s.

(** [operator*(vec3 const&, float)]: componentwise. *)
Definition vec3_scale (v : vec3) (s : float) : vec3 :=
  mkVec3 (F32.mul (vx v) s) (F32.mul (vy v) s) (F32.mul (vz v) s).

(** ** What the header includes but does not contain

  [Light.h] uses [LightData] (Data/HostDeviceData.h) and derives from
  [Transform] (Graphics/Transform.h); neither declaration is part of the
  header.  What the inline members need of them is collected here. *)

Class Host : Type := {
(** the state of the [Transform] base-class subobject *)
  Transform : Type;
(** the members of [LightData] that hold the cone attenuation factors *)
  ConeFactors : Type;
(** the members of [LightData] that no member of [Light.h] names *)
  LightDataRest : Type;
(** [sizeof(LightData)], a [size_t] *)
  sizeofLightData : Z
}.

(** ** [LightData]: the block mirrored to the GPU

  The members are the ones the inline functions of [Light.h] read and
  write, followed by what the header leaves to HostDeviceData.h. *)

Section LightDataDecl.
Context `{Host}.

Record LightData : Type := mkLightData {
  posW : vec3;
  dirW : vec3;
  upW : vec3;
  lightColor : vec3;
  type : Z;
  attenuationRadius : float;
  sourceRadius : float;
  sourceLength : float;
  coneFactors : ConeFactors;
  rest : LightDataRest
}.

Definition set_posW (v : vec3) (d : LightData) : LightData :=
  mkLightData v (dirW d) (upW d) (lightColor d) (type d)
      (attenuationRadius d) (sourceRadius d) (sourceLength d) (coneFactors d) (rest d).

Definition set_dirW (v : vec3) (d : LightData) : LightData :=
  mkLightData (posW d) v (upW d) (lightColor d) (type d)
      (attenuationRadius d) (sourceRadius d) (sourceLength d) (coneFactors d) (rest d).

Definition set_upW (v : vec3) (d : LightData) : LightData :=
  mkLightData (posW d) (dirW d) v (lightColor d) (type d)
      (attenuationRadius d) (sourceRadius d) (sourceLength d) (coneFactors d) (rest d).

Definition set_lightColor (v : vec3) (d : LightData) : LightData :=
  mkLightData (posW d) (dirW d) (upW d) v (type d)
      (attenuationRadius d) (sourceRadius d) (sourceLength d) (coneFactors d) (rest d).

Definition set_attenuationRadius (r : float) (d : LightData) : LightData :=
  mkLightData (posW d) (dirW d) (upW d) (lightColor d) (type d)
    r (sourceRadius d) (sourceLength d) (coneFactors d) (rest d).

Definition set_sourceRadius (r : float) (d : LightData) : LightData :=
  mkLightData (posW d) (dirW d) (upW d) (lightColor d) (type d)
      (attenuationRadius d) r (sourceLength d) (coneFactors d) (rest d).

Definition set_sourceLength (r : float) (d : LightData) : LightData :=
  mkLightData (posW d) (dirW d) (upW d) (lightColor d) (type d)
      (attenuationRadius d) (sourceRadius d) r (coneFactors d) (rest d).

Definition set_coneFactors (c : ConeFactors) (d : LightData) : LightData :=
  mkLightData (posW d) (dirW d) (upW d) (lightColor d) (type d)
      (attenuationRadius d) (sourceRadius d) (sourceLength d) c (rest d).

End LightDataDecl.

(** ** [class Light : public Transform] *)

Module Light.
Section Class.
Context `{Host}.

Record t : Type := mk {
  transform : Transform;
  mName : string;
  mColor : vec3;
  mIntensity : float;
  mData : LightData
}.

Definition with_mData (d : LightData) (l : t) : t :=
  mk (transform l) (mName l) (mColor l) (mIntensity l) d.

(** [static const size_t kDataSize = sizeof(LightData);] *)
Definition kDataSize : Z := sizeofLightData.

(** [void updateLightColor() { mData.lightColor = mColor * mIntensity; }] *)
Definition updateLightColor (l : t) : t :=
  with_mData (set_lightColor (vec3_scale (mColor l) (mIntensity l)) (mData l)) l.

(** [void setIntensity(float intensity) { mIntensity = intensity; updateLightColor(); }] *)
Definition setIntensity (intensity : float) (l : t) : t :=
  updateLightColor (mk (transform l) (mName l) (mColor l) intensity (mData l)).

(** [void setColor(const vec3& color) { mColor = color; updateLightColor(); }] *)
Definition setColor (color : vec3) (l : t) : t :=
  updateLightColor (mk (transform l) (mName l) color (mIntensity l) (mData l)).

(** [void setDirection(const vec3& dir) { mData.dirW = dir; }] *)
Definition setDirection (dir : vec3) (l : t) : t :=
  with_mData (set_dirW dir (mData l)) l.

Definition getIntensity (l : t) : float := mIntensity l.
Definition getColor (l : t) : vec3 := mColor l.
Definition getDirection (l : t) : vec3 := dirW (mData l).
Definition getType (l : t) : Z := type (mData l).
Definition getData (l : t) : LightData := mData l.

(** [const void setName(const std::string& Name) { mName = Name; }] *)
Definition setName (Name : string) (l : t) : t :=
  mk (transform l) Name (mColor l) (mIntensity l) (mData l).

Definition getName (l : t) : string := mName l.

(** [static uint32_t getShaderStructSize() { return kDataSize; }]: the
    [size_t] is converted to [uint32_t], that is reduced modulo 2^32. *)
Definition getShaderStructSize : Z := kDataSize mod 2 ^ 32.

(** [Light() = default;]: the default member initialisers [mColor =
    vec3(1.0f)] and [mIntensity = 1.0f], an empty [mName]; [transform0]
    and [data0] are what the default constructors of [Transform] and
    [LightData] leave. *)
Definition default (transform0 : Transform) (data0 : LightData) : t :=
  mk transform0 EmptyString (vec3_splat F32.one) F32.one data0.

End Class.
End Light.


(** ** [class DirectionalLight : public Light]

    No data members of its own: the object is its [Light] subobject. *)

Module DirectionalLight.
Section Class.
Context `{Host}.

Record t : Type := mk { light : Light.t }.

(** [void prepareGPUData() override {}] *)
Definition prepareGPUData (d : t) : t := d.

(** [void unloadGPUData() override {}] *)
Definition unloadGPUData (d : t) : t := d.

(** A member inherited from [Light] runs on the [Light] subobject. *)
Definition inherit (f : Light.t -> Light.t) (d : t) : t := mk (f (light d)).

End Class.
End DirectionalLight.

(** ** [class PointLight : public Light]

    No data members of its own either; its setters write the protected
    [mData] of the [Light] subobject. *)

Module PointLight.
Section Class.
Context `{Host}.

Record t : Type := mk { light : Light.t }.

Definition with_mData (d : LightData) (p : t) : t :=
  mk (Light.with_mData d (light p)).

Definition mData (p : t) : LightData := Light.mData (light p).

(** [void prepareGPUData() override {}] *)
Definition prepareGPUData (p : t) : t := p.

(** [void unloadGPUData() override {}] *)
Definition unloadGPUData (p : t) : t := p.

(** [void setAttenuationRadius(float radius) { mData.attenuationRadius = radius; }] *)
Definition setAttenuationRadius (radius : float) (p : t) : t :=
  with_mData (set_attenuationRadius radius (mData p)) p.

(** [void setPosition(const vec3& pos) { mData.posW = pos; }] *)
Definition setPosition (pos : vec3) (p : t) : t :=
  with_mData (set_posW pos (mData p)) p.

(** [void setUpVector(const vec3& up) { mData.upW = up; }] *)
Definition setUpVector (up : vec3) (p : t) : t :=
  with_mData (set_upW up (mData p)) p.

(** [void setSourceRadius(float radius) { mData.sourceRadius = radius; }] *)
Definition setSourceRadius (radius : float) (p : t) : t :=
  with_mData (set_sourceRadius radius (mData p)) p.

(** [void setSourceLength(float length) { mData.sourceLength = length; }] *)
Definition setSourceLength (length : float) (p : t) : t :=
  with_mData (set_sourceLength length (mData p)) p.

Definition getAttenuationRadius (p : t) : float := attenuationRadius (mData p).
Definition getPosition (p : t) : vec3 := posW (mData p).
Definition getUpVector (p : t) : vec3 := upW (mData p).
Definition getSourceRadius (p : t) : float := sourceRadius (mData p).
Definition getSourceLength (p : t) : float := sourceLength (mData p).

(** A member inherited from [Light] runs on the [Light] subobject. *)
Definition inherit (f : Light.t -> Light.t) (p : t) : t := mk (f (light p)).

(** The members [Light] gives a point light. *)
Definition setIntensity (i : float) : t -> t := inherit (Light.setIntensity i).
Definition setColor (c : vec3) : t -> t := inherit (Light.setColor c).
Definition setDirection (d : vec3) : t -> t := inherit (Light.setDirection d).
Definition setName (n : string) : t -> t := inherit (Light.setName n).
Definition getIntensity (p : t) : float := Light.getIntensity (light p).
Definition getColor (p : t) : vec3 := Light.getColor (light p).
Definition getDirection (p : t) : vec3 := Light.getDirection (light p).
Definition getName (p : t) : string := Light.getName (light p).
Definition getData (p : t) : LightData := Light.getData (light p).

(** [void move(const vec3& position, const vec3& target, const vec3& up)
    override;] is declared here and defined in Light.cpp, which is not part
    of the header: its body is the type of what the theorems take for it. *)
Definition move_body : Type := vec3 -> vec3 -> vec3 -> t -> t.

End Class.
End PointLight.


(** ** [class SpotLight : public PointLight] *)

(** What Light.cpp, which is not part of the header, decides for the two
    cone setters: how the attenuation factors follow from the angles, and
    which pair of angles a setter leaves in the object for a requested
    angle and the current pair (inner, outer). *)
Class ConeUpdate `{Host} : Type := {
  attenuationOf : float -> float -> ConeFactors;
  anglesAfterSetInner : float -> float -> float -> float * float;
  anglesAfterSetOuter : float -> float -> float -> float * float
}.

Module SpotLight.
Section Class.
Context `{Host}.

(** The [PointLight] subobject, then [float mInnerConeAngle] and
    [float mOuterConeAngle], angles in degrees. *)
Record t : Type := mk {
  point : PointLight.t;
  mInnerConeAngle : float;
  mOuterConeAngle : float
}.

Definition getInnerConeAngle (s : t) : float := mInnerConeAngle s.
Definition getOuterConeAngle (s : t) : float := mOuterConeAngle s.

(** A member inherited from [PointLight] runs on the [PointLight] subobject
    and leaves the members [SpotLight] adds alone. *)
Definition inherit (f : PointLight.t -> PointLight.t) (s : t) : t :=
  mk (f (point s)) (mInnerConeAngle s) (mOuterConeAngle s).

(** The members [SpotLight] does not declare and so takes from its bases. *)
Definition prepareGPUData : t -> t := inherit PointLight.prepareGPUData.
Definition unloadGPUData : t -> t := inherit PointLight.unloadGPUData.
Definition setAttenuationRadius (r : float) : t -> t :=
  inherit (PointLight.setAttenuationRadius r).
Definition setPosition (pos : vec3) : t -> t := inherit (PointLight.setPosition pos).
Definition setUpVector (up : vec3) : t -> t := inherit (PointLight.setUpVector up).
Definition setSourceRadius (r : float) : t -> t := inherit (PointLight.setSourceRadius r).
Definition setSourceLength (len : float) : t -> t :=
  inherit (PointLight.setSourceLength len).
Definition move (body : PointLight.move_body) (position target up : vec3) : t -> t :=
  inherit (body position target up).
Definition setIntensity (i : float) : t -> t := inherit (PointLight.setIntensity i).
Definition setColor (c : vec3) : t -> t := inherit (PointLight.setColor c).
Definition setDirection (d : vec3) : t -> t := inherit (PointLight.setDirection d).
Definition setName (n : string) : t -> t := inherit (PointLight.setName n).

Definition getAttenuationRadius (s : t) : float := PointLight.getAttenuationRadius (point s).
Definition getPosition (s : t) : vec3 := PointLight.getPosition (point s).
Definition getUpVector (s : t) : vec3 := PointLight.getUpVector (point s).
Definition getSourceRadius (s : t) : float := PointLight.getSourceRadius (point s).
Definition getSourceLength (s : t) : float := PointLight.getSourceLength (point s).
Definition getIntensity (s : t) : float := PointLight.getIntensity (point s).
Definition getColor (s : t) : vec3 := PointLight.getColor (point s).
Definition getDirection (s : t) : vec3 := PointLight.getDirection (point s).
Definition getName (s : t) : string := PointLight.getName (point s).
Definition getData (s : t) : LightData := PointLight.getData (point s).

(** The default member initialisers [mInnerConeAngle = 0.0f] and
    [mOuterConeAngle = 45.0f] over a constructed [PointLight] subobject. *)
Definition initial (point0 : PointLight.t) : t :=
  mk point0 F32.zero (F32.of_Z 45).

Context `{!ConeUpdate}.

(** Modelled from the spec: [void updateConeProperties()], declared in
    Light.h and defined in Light.cpp.  The spec's derived-parameter update
    "cone angles -> attenuation factors": the factors of the current pair
    of angles are written into the GPU data block. *)
Definition updateConeProperties (s : t) : t :=
  inherit (fun p =>
    PointLight.with_mData
      (set_coneFactors (attenuationOf (mInnerConeAngle s) (mOuterConeAngle s))
         (PointLight.mData p)) p) s.

(** Modelled from the spec: [void setInnerConeAngle(float angle)], declared
    in Light.h and defined in Light.cpp.  The setter stores the angles it
    settles on for the request and re-derives the cone properties. *)
Definition setInnerConeAngle (angle : float) (s : t) : t :=
  let io := anglesAfterSetInner angle (mInnerConeAngle s) (mOuterConeAngle s) in
  updateConeProperties (mk (point s) (fst io) (snd io)).

(** Modelled from the spec: [void setOuterConeAngle(float angle)], declared
    in Light.h and defined in Light.cpp; as [setInnerConeAngle]. *)
Definition setOuterConeAngle (angle : float) (s : t) : t :=
  let io := anglesAfterSetOuter angle (mInnerConeAngle s) (mOuterConeAngle s) in
  updateConeProperties (mk (point s) (fst io) (snd io)).

End Class.
End SpotLight.


(** ** The class declarations of the header, as data

    Each class with its light base class, the member functions it declares
    itself, and the condition of the [#if] that encloses it, if any. *)

Inductive ClassName : Type :=
  | Class_Light
  | Class_DirectionalLight
  | Class_PointLight
  | Class_SpotLight
  | Class_AreaLight.

Definition ClassName_eqb (a b : ClassName) : bool :=
  match a, b with
  | Class_Light, Class_Light
  | Class_DirectionalLight, Class_DirectionalLight
  | Class_PointLight, Class_PointLight
  | Class_SpotLight, Class_SpotLight
  | Class_AreaLight, Class_AreaLight => true
  | _, _ => false
  end.

Record ClassDecl : Type := mkClassDecl {
  className : ClassName;
  baseClass : option ClassName;
  memberFunctions : list string;
  enclosingIf : option Z
}.

Local Open Scope string_scope.

Definition header : list ClassDecl :=
  [ mkClassDecl Class_Light None
      [ "setIntoConstantBuffer"; "renderUI"; "prepareGPUData"; "unloadGPUData";
        "setIntensity"; "setColor"; "setDirection"; "getIntensity"; "getColor";
        "getDirection"; "getType"; "getData"; "setName"; "getName";
        "getShaderStructSize"; "updateLightColor" ]
      None;
    mkClassDecl Class_DirectionalLight (Some Class_Light)
      [ "create"; "prepareGPUData"; "unloadGPUData"; "move" ]
      None;
    mkClassDecl Class_PointLight (Some Class_Light)
      [ "create"; "prepareGPUData"; "unloadGPUData"; "renderUI";
        "setAttenuationRadius"; "setPosition"; "setUpVector"; "setSourceRadius";
        "setSourceLength"; "getAttenuationRadius"; "getPosition"; "getUpVector";
        "getSourceRadius"; "getSourceLength"; "move" ]
      None;
    mkClassDecl Class_SpotLight (Some Class_PointLight)
      [ "create"; "renderUI"; "setInnerConeAngle"; "setOuterConeAngle";
        "getInnerConeAngle"; "getOuterConeAngle"; "updateConeProperties" ]
      None;
    mkClassDecl Class_AreaLight (Some Class_Light)
      [ "create"; "getPower"; "setIntoConstantBuffer"; "renderUI";
        "prepareGPUData"; "unloadGPUData"; "setMeshData"; "getMeshData";
        "computeSurfaceArea"; "getSurfaceArea"; "getMeshCDF"; "setIndexBuffer";
        "getIndexBuffer"; "setPositionsBuffer"; "getPositionsBuffer";
        "setTexCoordBuffer"; "getTexCoordBuffer"; "setMeshCDFBuffer";
        "getMeshCDFBuffer"; "move"; "createAreaLightsForModel"; "createAreaLight" ]
      (Some 0%Z) ].

Local Close Scope string_scope.

(** The preprocessor keeps a declaration unless its [#if] condition is 0. *)
Definition kept (d : ClassDecl) : bool :=
  match enclosingIf d with
  | None => true
  | Some c => negb (c =? 0)
  end.

(** What the compiler sees of the header. *)
Definition compiled : list ClassDecl := filter kept header.

Definition findClass (c : ClassName) : option ClassDecl :=
  find (fun d => ClassName_eqb (className d) c) compiled.

(** Member lookup: the class itself first, then its base. *)
Fixpoint lookupFrom (fuel : nat) (c : ClassName) (m : string) : option ClassName :=
  match fuel with
  | O => None
  | S fuel' =>
      match findClass c with
      | None => None
      | Some d =>
          if existsb (String.eqb m) (memberFunctions d) then Some c
          else match baseClass d with
               | None => None
               | Some b => lookupFrom fuel' b m
               end
      end
  end.

(** The class whose declaration of [m] an object of class [c] uses. *)
Definition definingClass (c : ClassName) (m : string) : option ClassName :=
  lookupFrom (List.length header) c m.

(** The members of [PointLight] a spot light is said to inherit. *)
Definition inheritedFromPoint : list string :=
  [ "setPosition"; "getPosition"; "setAttenuationRadius"; "getAttenuationRadius";
    "setUpVector"; "getUpVector"; "setSourceRadius"; "getSourceRadius";
    "setSourceLength"; "getSourceLength"; "move" ]%string.

(** ** Sequences of calls *)

(** The mutators [Light] defines inline. *)
Inductive LightOp : Type :=
  | SetIntensity (intensity : float)
  | SetColor (color : vec3)
  | SetDirection (dir : vec3)
  | SetName (name : string).

(** The mutators a [DirectionalLight] has with an inline body. *)
Inductive DirectionalOp : Type :=
  | DirLight (o : LightOp)
  | DirPrepareGPUData
  | DirUnloadGPUData.

(** The mutators a [PointLight] has with an inline body; a [SpotLight]
    inherits every one of them. *)
Inductive PointOp : Type :=
  | PtLight (o : LightOp)
  | PtPrepareGPUData
  | PtUnloadGPUData
  | SetAttenuationRadius (radius : float)
  | SetPosition (pos : vec3)
  | SetUpVector (up : vec3)
  | SetSourceRadius (radius : float)
  | SetSourceLength (length : float).

Section Calls.
Context `{Host}.

Definition Light_call (o : LightOp) : Light.t -> Light.t :=
  match o with
  | SetIntensity i => Light.setIntensity i
  | SetColor c => Light.setColor c
  | SetDirection d => Light.setDirection d
  | SetName n => Light.setName n
  end.

Definition Directional_call (o : DirectionalOp) : DirectionalLight.t -> DirectionalLight.t :=
  match o with
  | DirLight o => DirectionalLight.inherit (Light_call o)
  | DirPrepareGPUData => DirectionalLight.prepareGPUData
  | DirUnloadGPUData => DirectionalLight.unloadGPUData
  end.

Definition Point_call (o : PointOp) : PointLight.t -> PointLight.t :=
  match o with
  | PtLight o => PointLight.inherit (Light_call o)
  | PtPrepareGPUData => PointLight.prepareGPUData
  | PtUnloadGPUData => PointLight.unloadGPUData
  | SetAttenuationRadius r => PointLight.setAttenuationRadius r
  | SetPosition p => PointLight.setPosition p
  | SetUpVector u => PointLight.setUpVector u
  | SetSourceRadius r => PointLight.setSourceRadius r
  | SetSourceLength len => PointLight.setSourceLength len
  end.

Definition Spot_call (o : PointOp) : SpotLight.t -> SpotLight.t :=
  SpotLight.inherit (Point_call o).

(** A sequence of calls, first call first. *)
Definition run {Op S : Type} (call : Op -> S -> S) (ops : list Op) (s : S) : S :=
  fold_left (fun acc o => call o acc) ops s.

(** Whether a call re-derives the GPU colour. *)
Definition derivesColor (o : LightOp) : bool :=
  match o with
  | SetIntensity _ | SetColor _ => true
  | SetDirection _ | SetName _ => false
  end.

(** [mData.lightColor == mColor * mIntensity], as stored values. *)
Definition colorDerived (l : Light.t) : Prop :=
  lightColor (Light.mData l) = vec3_scale (Light.mColor l) (Light.mIntensity l).

End Calls.


(** ** The ten setters as calls on a spot light *)

Inductive Setter : Type :=
  | Call_setIntensity (intensity : float)
  | Call_setColor (color : vec3)
  | Call_setDirection (dir : vec3)
  | Call_setPosition (pos : vec3)
  | Call_setAttenuationRadius (radius : float)
  | Call_setSourceRadius (radius : float)
  | Call_setSourceLength (length : float)
  | Call_setInnerConeAngle (angle : float)
  | Call_setOuterConeAngle (angle : float)
  | Call_setName (name : string).

(** How a call ends: it returns, leaving the object in a state, or it
    leaves by an exception. *)
Inductive Outcome (A : Type) : Type :=
  | Returned (a : A)
  | Raised.

Arguments Returned {A} a.
Arguments Raised {A}.

Section Setters.
Context `{Host} `{!ConeUpdate}.

(** None of the ten bodies has a [throw], a test of its argument or an
    early [return]: each runs its assignments and returns. *)
Definition callSetter (c : Setter) (s : SpotLight.t) : Outcome SpotLight.t :=
  match c with
  | Call_setIntensity i => Returned (SpotLight.setIntensity i s)
  | Call_setColor v => Returned (SpotLight.setColor v s)
  | Call_setDirection v => Returned (SpotLight.setDirection v s)
  | Call_setPosition v => Returned (SpotLight.setPosition v s)
  | Call_setAttenuationRadius r => Returned (SpotLight.setAttenuationRadius r s)
  | Call_setSourceRadius r => Returned (SpotLight.setSourceRadius r s)
  | Call_setSourceLength r => Returned (SpotLight.setSourceLength r s)
  | Call_setInnerConeAngle a => Returned (SpotLight.setInnerConeAngle a s)
  | Call_setOuterConeAngle a => Returned (SpotLight.setOuterConeAngle a s)
  | Call_setName n => Returned (SpotLight.setName n s)
  end.

(** What a setter called on [s] has assigned in [s']: the value it was
    given, and the values derived from it. *)
Definition assigned (c : Setter) (s s' : SpotLight.t) : Prop :=
  match c with
  | Call_setIntensity i =>
      SpotLight.getIntensity s' = i /\
      lightColor (SpotLight.getData s') = vec3_scale (SpotLight.getColor s) i
  | Call_setColor v =>
      SpotLight.getColor s' = v /\
      lightColor (SpotLight.getData s') = vec3_scale v (SpotLight.getIntensity s)
  | Call_setDirection v => SpotLight.getDirection s' = v
  | Call_setPosition v => SpotLight.getPosition s' = v
  | Call_setAttenuationRadius r => SpotLight.getAttenuationRadius s' = r
  | Call_setSourceRadius r => SpotLight.getSourceRadius s' = r
  | Call_setSourceLength r => SpotLight.getSourceLength s' = r
  | Call_setInnerConeAngle a =>
      (SpotLight.getInnerConeAngle s', SpotLight.getOuterConeAngle s')
        = anglesAfterSetInner a (SpotLight.getInnerConeAngle s) (SpotLight.getOuterConeAngle s) /\
      coneFactors (SpotLight.getData s')
        = attenuationOf (SpotLight.getInnerConeAngle s') (SpotLight.getOuterConeAngle s')
  | Call_setOuterConeAngle a =>
      (SpotLight.getInnerConeAngle s', SpotLight.getOuterConeAngle s')
        = anglesAfterSetOuter a (SpotLight.getInnerConeAngle s) (SpotLight.getOuterConeAngle s) /\
      coneFactors (SpotLight.getData s')
        = attenuationOf (SpotLight.getInnerConeAngle s') (SpotLight.getOuterConeAngle s')
  | Call_setName n => SpotLight.getName s' = n
  end.

End Setters.

(** ** Frames: which members of [LightData] a call may change *)

Inductive Field : Type :=
  | F_posW | F_dirW | F_upW | F_lightColor | F_type
  | F_attenuationRadius | F_sourceRadius | F_sourceLength
  | F_coneFactors | F_rest.

Section Frames.
Context `{Host}.

Definition sameField (f : Field) (d d' : LightData) : Prop :=
  match f with
  | F_posW => posW d' = posW d
  | F_dirW => dirW d' = dirW d
  | F_upW => upW d' = upW d
  | F_lightColor => lightColor d' = lightColor d
  | F_type => type d' = type d
  | F_attenuationRadius => attenuationRadius d' = attenuationRadius d
  | F_sourceRadius => sourceRadius d' = sourceRadius d
  | F_sourceLength => sourceLength d' = sourceLength d
  | F_coneFactors => coneFactors d' = coneFactors d
  | F_rest => rest d' = rest d
  end.

(** Every member of the block but [f] is as it was. *)
Definition changesOnly (f : Field) (d d' : LightData) : Prop :=
  forall g : Field, g <> f -> sameField g d d'.

(** The members of a [Light] outside its [mData] are as they were. *)
Definition sameOutsideData (l l' : Light.t) : Prop :=
  Light.transform l' = Light.transform l /\
  Light.mName l' = Light.mName l /\
  Light.mColor l' = Light.mColor l /\
  Light.mIntensity l' = Light.mIntensity l.

End Frames.

(** ** A concrete host and concrete lights, to run the definitions on *)

(** A 96-byte block whose cone factors are the two angles themselves. *)
Definition sampleHost : Host :=
  {| Transform := unit;
     ConeFactors := float * float;
     LightDataRest := unit;
     sizeofLightData := 96 |}.

(** Setters that store the requested angle as it is. *)
Definition sampleCone : @ConeUpdate sampleHost :=
  @Build_ConeUpdate sampleHost
    (fun inner outer => (inner, outer))
    (fun angle _ outer => (angle, outer))
    (fun angle inner _ => (inner, angle)).

Definition sampleData : @LightData sampleHost :=
  @mkLightData sampleHost
    (vec3_splat F32.zero) (mkVec3 F32.zero (F32.of_Z (-1)) F32.zero)
    (mkVec3 F32.zero F32.one F32.zero) (vec3_splat F32.one) 0
    (F32.of_Z 10) F32.zero F32.zero (F32.zero, F32.of_Z 45) tt.

Definition sampleLight : @Light.t sampleHost :=
  @Light.default sampleHost tt sampleData.

Definition sampleSpot : @SpotLight.t sampleHost :=
  @SpotLight.initial sampleHost (@PointLight.mk sampleHost sampleLight).


(** ** Which member a call sets, and which members it may change *)

(** The members of a light: the four [Light] keeps beside its data block,
    and the members of the block. *)
Inductive Member : Type :=
  | M_transform
  | M_name
  | M_color
  | M_intensity
  | M_data (f : Field).

(** Two calls of the same setter (the hooks set nothing). *)
Definition sameSetter (a b : PointOp) : bool :=
  match a, b with
  | PtLight (SetIntensity _), PtLight (SetIntensity _)
  | PtLight (SetColor _), PtLight (SetColor _)
  | PtLight (SetDirection _), PtLight (SetDirection _)
  | PtLight (SetName _), PtLight (SetName _)
  | SetAttenuationRadius _, SetAttenuationRadius _
  | SetPosition _, SetPosition _
  | SetUpVector _, SetUpVector _
  | SetSourceRadius _, SetSourceRadius _
  | SetSourceLength _, SetSourceLength _ => true
  | _, _ => false
  end.

(** The members a body assigns: [setIntensity] and [setColor] assign their
    own member and, through [updateLightColor], [mData.lightColor]. *)
Definition LightOp_touches (o : LightOp) (m : Member) : bool :=
  match o, m with
  | SetIntensity _, M_intensity
  | SetIntensity _, M_data F_lightColor
  | SetColor _, M_color
  | SetColor _, M_data F_lightColor
  | SetDirection _, M_data F_dirW
  | SetName _, M_name => true
  | _, _ => false
  end.

Definition PointOp_touches (o : PointOp) (m : Member) : bool :=
  match o, m with
  | PtLight o, _ => LightOp_touches o m
  | SetAttenuationRadius _, M_data F_attenuationRadius
  | SetPosition _, M_data F_posW
  | SetUpVector _, M_data F_upW
  | SetSourceRadius _, M_data F_sourceRadius
  | SetSourceLength _, M_data F_sourceLength => true
  | _, _ => false
  end.

Section Members.
Context `{Host}.

(** Member [m] of [l'] is what it is in [l]. *)
Definition memberSame (m : Member) (l l' : Light.t) : Prop :=
  match m with
  | M_transform => Light.transform l' = Light.transform l
  | M_name => Light.mName l' = Light.mName l
  | M_color => Light.mColor l' = Light.mColor l
  | M_intensity => Light.mIntensity l' = Light.mIntensity l
  | M_data f => sameField f (Light.mData l) (Light.mData l')
  end.

End Members.

(** ** Classes of binary32 values *)

(** A representable binary32 value: a finite one has a canonical mantissa
    and an exponent in range. *)
Definition float_valid (x : float) : bool := valid_binary F32.prec F32.emax x.

(** A representable binary32 number: a zero, an infinity or a finite
    value, and no NaN. *)
Definition float_number (x : float) : bool :=
  match x with
  | S754_nan => false
  | _ => float_valid x
  end.

(** Neither a NaN nor an infinity. *)
Definition float_finite (x : float) : bool :=
  match x with
  | S754_zero _ | S754_finite _ _ _ => true
  | S754_infinity _ | S754_nan => false
  end.

Definition float_sign (x : float) : bool :=
  match x with
  | S754_zero s | S754_infinity s | S754_finite s _ _ => s
  | S754_nan => false
  end.

Definition vec3_forall (P : float -> bool) (v : vec3) : bool :=
  P (vx v) && P (vy v) && P (vz v).

Definition vec3_map (f : float -> float) (v : vec3) : vec3 :=
  mkVec3 (f (vx v)) (f (vy v)) (f (vz v)).

(** A colour with an infinite component and a negative zero. *)
Definition edgeColor : vec3 :=
  mkVec3 (S754_infinity false) (S754_zero true) (F32.of_Z 2).

Definition samplePoint : @PointLight.t sampleHost :=
  @PointLight.mk sampleHost sampleLight.

(** * Properties *)

(** ** The GPU colour follows colour and intensity *)

Section ColorInvariant.
Context `{Host}.

Lemma updateLightColor_derived (l : Light.t) :
  colorDerived (Light.updateLightColor l).
Proof. reflexivity. Qed.

Lemma Light_call_establishes (o : LightOp) (l : Light.t) :
  derivesColor o = true -> colorDerived (Light_call o l).
Proof.
  destruct o; simpl; intros E; try discriminate E; apply updateLightColor_derived.
Qed.

Lemma Light_call_preserves (o : LightOp) (l : Light.t) :
  colorDerived l -> colorDerived (Light_call o l).
Proof.
  destruct o as [i | c | d | n]; intros I.
  - apply updateLightColor_derived.
  - apply updateLightColor_derived.
  - exact I.
  - exact I.
Qed.

Lemma Directional_call_preserves (o : DirectionalOp) (d : DirectionalLight.t) :
  colorDerived (DirectionalLight.light d) ->
  colorDerived (DirectionalLight.light (Directional_call o d)).
Proof.
  destruct o as [o | | ]; simpl; intros I; auto using Light_call_preserves.
Qed.

Lemma Point_call_preserves (o : PointOp) (p : PointLight.t) :
  colorDerived (PointLight.light p) ->
  colorDerived (PointLight.light (Point_call o p)).
Proof.
  destruct o as [o | | | r | v | v | r | r]; simpl; intros I;
    auto using Light_call_preserves.
Qed.

(** An invariant every call keeps is kept by every sequence of calls. *)
Lemma run_invariant {Op S : Type} (call : Op -> S -> S) (P : S -> Prop) :
  (forall o s, P s -> P (call o s)) ->
  forall ops s, P s -> P (run call ops s).
Proof.
  intros step ops; induction ops as [| o ops IH]; intros s Ps; simpl.
  - exact Ps.
  - apply IH, step, Ps.
Qed.

Lemma run_cons {Op S : Type} (call : Op -> S -> S) (o : Op) (ops : list Op) (s : S) :
  run call (o :: ops) s = run call ops (call o s).
Proof. reflexivity. Qed.

Lemma run_establishes (ops : list LightOp) (l : Light.t) :
  existsb derivesColor ops = true -> colorDerived (run Light_call ops l).
Proof.
  revert l; induction ops as [| o ops IH]; intros l E; simpl in E.
  - discriminate E.
  - rewrite run_cons.
    destruct (existsb derivesColor ops) eqn:Later.
    + apply IH; reflexivity.
    + rewrite orb_false_r in E.
      apply (run_invariant Light_call colorDerived Light_call_preserves).
      apply Light_call_establishes, E.
Qed.

(** The equation [mData.lightColor == mColor * mIntensity] is established
    by [setIntensity] and by [setColor] from any state; a sequence of the
    inline [Light] mutators keeps it when it holds at the start, and
    establishes it as soon as it holds one of the two; the inline mutators
    of [DirectionalLight], [PointLight] and [SpotLight] (the hooks and the
    point-light setters included) keep it on their [Light] subobject.
    Nothing is said of a light on which it does not hold yet, nor of the
    members defined in Light.cpp. *)
Theorem lightColor_established_and_kept :
  (forall i l, colorDerived (Light.setIntensity i l)) /\
  (forall c l, colorDerived (Light.setColor c l)) /\
  (forall ops l, colorDerived l -> colorDerived (run Light_call ops l)) /\
  (forall ops l, existsb derivesColor ops = true ->
     colorDerived (run Light_call ops l)) /\
  (forall ops d, colorDerived (DirectionalLight.light d) ->
     colorDerived (DirectionalLight.light (run Directional_call ops d))) /\
  (forall ops p, colorDerived (PointLight.light p) ->
     colorDerived (PointLight.light (run Point_call ops p))) /\
  (forall ops s, colorDerived (PointLight.light (SpotLight.point s)) ->
     colorDerived (PointLight.light (SpotLight.point (run Spot_call ops s)))).
Proof.
  split; [| split; [| split; [| split; [| split; [| split]]]]].
  - intros i l; apply updateLightColor_derived.
  - intros c l; apply updateLightColor_derived.
  - apply run_invariant, Light_call_preserves.
  - apply run_establishes.
  - intros ops d.
    apply (run_invariant Directional_call
             (fun d => colorDerived (DirectionalLight.light d))).
    apply Directional_call_preserves.
  - intros ops p.
    apply (run_invariant Point_call (fun p => colorDerived (PointLight.light p))).
    apply Point_call_preserves.
  - intros ops s.
    apply (run_invariant Spot_call
             (fun s => colorDerived (PointLight.light (SpotLight.point s)))).
    intros o s'; unfold Spot_call; simpl; apply Point_call_preserves.
Qed.

End ColorInvariant.

(** On a concrete light: the sample light satisfies the equation and keeps
    it through a direction and a name change; a light whose GPU colour is
    stale satisfies it after [setIntensity(-2)]. *)
Lemma lightColor_established_and_kept_witness :
  @colorDerived sampleHost
    (run (@Light_call sampleHost)
       [SetDirection (vec3_splat F32.zero); SetName "sun"%string] sampleLight) /\
  @colorDerived sampleHost
    (run (@Light_call sampleHost)
       [SetIntensity (F32.of_Z (-2)); SetDirection (vec3_splat F32.one)]
       (@Light.with_mData sampleHost
          (@set_lightColor sampleHost (vec3_splat F32.zero) sampleData) sampleLight)).
Proof.
  split.
  - apply (proj1 (proj2 (proj2 (@lightColor_established_and_kept sampleHost)))).
    vm_compute; reflexivity.
  - apply (proj1 (proj2 (proj2 (proj2
             (@lightColor_established_and_kept sampleHost))))).
    vm_compute; reflexivity.
Defined.

(** ** Derived parameters are updated by the setters *)

Section DerivedParameters.
Context `{Host} `{!ConeUpdate}.

Lemma updateConeProperties_factors (s : SpotLight.t) :
  coneFactors (SpotLight.getData (SpotLight.updateConeProperties s))
    = attenuationOf (SpotLight.mInnerConeAngle s) (SpotLight.mOuterConeAngle s).
Proof. reflexivity. Qed.

Lemma updateConeProperties_angles (s : SpotLight.t) :
  SpotLight.getInnerConeAngle (SpotLight.updateConeProperties s)
    = SpotLight.mInnerConeAngle s /\
  SpotLight.getOuterConeAngle (SpotLight.updateConeProperties s)
    = SpotLight.mOuterConeAngle s.
Proof. split; reflexivity. Qed.

(** C3. After [setIntensity(i)] on a light, [getData().lightColor] is
    [getColor() * i] (and [getColor()] is what it was); after [setColor(c)]
    it is [c * getIntensity()]; the same through a point light and a spot
    light; after [setInnerConeAngle(a)] or [setOuterConeAngle(a)] on a spot
    light the cone attenuation factors in the GPU data block are the ones
    derived from the angles the light now has. *)
Theorem C3_setters_update_derived_parameters :
  (forall i l,
     lightColor (Light.getData (Light.setIntensity i l))
       = vec3_scale (Light.getColor (Light.setIntensity i l)) i /\
     Light.getColor (Light.setIntensity i l) = Light.getColor l) /\
  (forall c l,
     lightColor (Light.getData (Light.setColor c l))
       = vec3_scale c (Light.getIntensity (Light.setColor c l)) /\
     Light.getIntensity (Light.setColor c l) = Light.getIntensity l) /\
  (forall i p,
     lightColor (PointLight.getData (PointLight.setIntensity i p))
       = vec3_scale (PointLight.getColor p) i) /\
  (forall i s,
     lightColor (SpotLight.getData (SpotLight.setIntensity i s))
       = vec3_scale (SpotLight.getColor s) i) /\
  (forall i d,
     lightColor (Light.getData (DirectionalLight.light
                   (DirectionalLight.inherit (Light.setIntensity i) d)))
       = vec3_scale (Light.getColor (DirectionalLight.light d)) i) /\
  (forall a s,
     coneFactors (SpotLight.getData (SpotLight.setInnerConeAngle a s))
       = attenuationOf
           (SpotLight.getInnerConeAngle (SpotLight.setInnerConeAngle a s))
           (SpotLight.getOuterConeAngle (SpotLight.setInnerConeAngle a s))) /\
  (forall a s,
     coneFactors (SpotLight.getData (SpotLight.setOuterConeAngle a s))
       = attenuationOf
           (SpotLight.getInnerConeAngle (SpotLight.setOuterConeAngle a s))
           (SpotLight.getOuterConeAngle (SpotLight.setOuterConeAngle a s))).
Proof.
  split; [| split; [| split; [| split; [| split; [| split]]]]].
  - intros i l; split; reflexivity.
  - intros c l; split; reflexivity.
  - intros i p; reflexivity.
  - intros i s; reflexivity.
  - intros i d; reflexivity.
  - intros a s; unfold SpotLight.setInnerConeAngle.
    rewrite updateConeProperties_factors.
    destruct (updateConeProperties_angles
                (SpotLight.mk (SpotLight.point s)
                   (fst (anglesAfterSetInner a (SpotLight.mInnerConeAngle s)
                           (SpotLight.mOuterConeAngle s)))
                   (snd (anglesAfterSetInner a (SpotLight.mInnerConeAngle s)
                           (SpotLight.mOuterConeAngle s))))) as [Ei Eo].
    cbv zeta; rewrite Ei, Eo; reflexivity.
  - intros a s; unfold SpotLight.setOuterConeAngle.
    rewrite updateConeProperties_factors.
    destruct (updateConeProperties_angles
                (SpotLight.mk (SpotLight.point s)
                   (fst (anglesAfterSetOuter a (SpotLight.mInnerConeAngle s)
                           (SpotLight.mOuterConeAngle s)))
                   (snd (anglesAfterSetOuter a (SpotLight.mInnerConeAngle s)
                           (SpotLight.mOuterConeAngle s))))) as [Ei Eo].
    cbv zeta; rewrite Ei, Eo; reflexivity.
Qed.

(** C4. Each of the ten setters, called on any spot light with any
    argument, returns, and has then assigned the value it was given
    together with the values derived from it. *)
Theorem C4_setters_return_and_assign (c : Setter) (s : SpotLight.t) :
  exists s', callSetter c s = Returned s' /\ assigned c s s'.
Proof.
  destruct c as [i | v | v | v | r | r | r | a | a | n];
    (eexists; split; [reflexivity |]); simpl.
  - split; reflexivity.
  - split; reflexivity.
  - reflexivity.
  - reflexivity.
  - reflexivity.
  - reflexivity.
  - reflexivity.
  - split; [symmetry; apply surjective_pairing | reflexivity].
  - split; [symmetry; apply surjective_pairing | reflexivity].
  - reflexivity.
Qed.

End DerivedParameters.

(** ** The GPU hooks of directional and point lights *)

Section Hooks.
Context `{Host}.

(** C5. [DirectionalLight] and [PointLight] each declare [prepareGPUData]
    and [unloadGPUData] themselves, and each of the four bodies leaves the
    light as it found it: the whole object, hence its name, colour,
    intensity and its [LightData] block. *)
Theorem C5_hooks_change_nothing :
  (definingClass Class_DirectionalLight "prepareGPUData" = Some Class_DirectionalLight /\
   definingClass Class_DirectionalLight "unloadGPUData" = Some Class_DirectionalLight /\
   definingClass Class_PointLight "prepareGPUData" = Some Class_PointLight /\
   definingClass Class_PointLight "unloadGPUData" = Some Class_PointLight) /\
  (forall d : DirectionalLight.t,
     DirectionalLight.prepareGPUData d = d /\ DirectionalLight.unloadGPUData d = d) /\
  (forall p : PointLight.t,
     PointLight.prepareGPUData p = p /\ PointLight.unloadGPUData p = p) /\
  (forall (d : DirectionalLight.t) (unload : bool),
     let d' := if unload then DirectionalLight.unloadGPUData d
               else DirectionalLight.prepareGPUData d in
     Light.getName (DirectionalLight.light d')
       = Light.getName (DirectionalLight.light d) /\
     Light.getColor (DirectionalLight.light d')
       = Light.getColor (DirectionalLight.light d) /\
     Light.getIntensity (DirectionalLight.light d')
       = Light.getIntensity (DirectionalLight.light d) /\
     Light.getData (DirectionalLight.light d')
       = Light.getData (DirectionalLight.light d)) /\
  (forall (p : PointLight.t) (unload : bool),
     let p' := if unload then PointLight.unloadGPUData p
               else PointLight.prepareGPUData p in
     PointLight.getName p' = PointLight.getName p /\
     PointLight.getColor p' = PointLight.getColor p /\
     PointLight.getIntensity p' = PointLight.getIntensity p /\
     PointLight.getData p' = PointLight.getData p).
Proof.
  split; [| split; [| split; [| split]]].
  - repeat split; reflexivity.
  - intros d; split; reflexivity.
  - intros p; split; reflexivity.
  - intros d [|]; repeat split; reflexivity.
  - intros p [|]; repeat split; reflexivity.
Qed.

End Hooks.

(** ** One fixed-size data block per light *)

Section DataBlock.
Context `{Host}.

(** C6. When [sizeof(LightData)] fits a [uint32_t], [getShaderStructSize()]
    is [sizeof(LightData)]; it is the one static member of [Light] for every
    compiled light class and takes no object, so no state can change it;
    [getData()], also [Light]'s for every class, is the [mData] block of
    the light's [Light] subobject. *)
Theorem C6_one_fixed_size_block :
  0 <= sizeofLightData < 2 ^ 32 ->
  Light.getShaderStructSize = sizeofLightData /\
  Light.getShaderStructSize = Light.kDataSize /\
  Forall (fun d => definingClass (className d) "getShaderStructSize" = Some Class_Light /\
                   definingClass (className d) "getData" = Some Class_Light) compiled /\
  (forall l : Light.t, Light.getData l = Light.mData l) /\
  (forall d : DirectionalLight.t,
     Light.getData (DirectionalLight.light d) = Light.mData (DirectionalLight.light d)) /\
  (forall p : PointLight.t, PointLight.getData p = Light.mData (PointLight.light p)) /\
  (forall s : SpotLight.t,
     SpotLight.getData s = Light.mData (PointLight.light (SpotLight.point s))).
Proof.
  intros Fits.
  assert (E : Light.getShaderStructSize = sizeofLightData).
  { unfold Light.getShaderStructSize, Light.kDataSize.
    apply Z.mod_small; exact Fits. }
  split; [exact E |].
  split; [exact E |].
  split.
  - unfold compiled; simpl.
    repeat (constructor; [split; reflexivity |]); constructor.
  - repeat split; reflexivity.
Qed.

End DataBlock.

(** C6 for the 96-byte sample block. *)
Lemma C6_block_size_witness :
  0 <= @sizeofLightData sampleHost < 2 ^ 32 /\
  @Light.getShaderStructSize sampleHost = 96.
Proof.
  assert (Fits : 0 <= @sizeofLightData sampleHost < 2 ^ 32) by (simpl; lia).
  split; [exact Fits |].
  exact (proj1 (@C6_one_fixed_size_block sampleHost Fits)).
Defined.

(** ** The hierarchy *)

Lemma lookupFrom_found (fuel : nat) (c c' : ClassName) (m : string) :
  lookupFrom fuel c m = Some c' -> exists d, findClass c' = Some d.
Proof.
  revert c; induction fuel as [| fuel IH]; intros c; simpl.
  - discriminate.
  - destruct (findClass c) as [d |] eqn:Found; [| discriminate].
    destruct (existsb (String.eqb m) (memberFunctions d)).
    + intros E; injection E as <-; exists d; exact Found.
    + destruct (baseClass d) as [b |]; [apply IH | discriminate].
Qed.

Section Hierarchy.
Context `{Host}.

(** C7. The compiled classes are [Light], [DirectionalLight], [PointLight]
    and [SpotLight], with [Light] the base of the directional and the point
    light and [PointLight] the base of the spot light; the [#if 0]'d
    [AreaLight] is no compiled class and declares no member any object
    uses.  A spot light takes each of the eleven listed members from
    [PointLight]: called on a spot light, a setter or [move] (whatever its
    body in Light.cpp) does to the [PointLight] subobject what the
    [PointLight] member does and leaves the cone angles alone, and a getter
    returns what the [PointLight] getter returns. *)
Theorem C7_spot_light_inherits_point_light (move_body : PointLight.move_body) :
  map className compiled
    = [Class_Light; Class_DirectionalLight; Class_PointLight; Class_SpotLight] /\
  map baseClass compiled
    = [None; Some Class_Light; Some Class_Light; Some Class_PointLight] /\
  Forall (fun m => definingClass Class_SpotLight m = Some Class_PointLight)
    inheritedFromPoint /\
  findClass Class_AreaLight = None /\
  (forall m, definingClass Class_AreaLight m = None) /\
  (forall c m, definingClass c m <> Some Class_AreaLight) /\
  (forall s pos target up v r,
     let same_angles s' :=
       SpotLight.getInnerConeAngle s' = SpotLight.getInnerConeAngle s /\
       SpotLight.getOuterConeAngle s' = SpotLight.getOuterConeAngle s in
     (SpotLight.point (SpotLight.setPosition v s)
        = PointLight.setPosition v (SpotLight.point s) /\
      same_angles (SpotLight.setPosition v s)) /\
     (SpotLight.point (SpotLight.setAttenuationRadius r s)
        = PointLight.setAttenuationRadius r (SpotLight.point s) /\
      same_angles (SpotLight.setAttenuationRadius r s)) /\
     (SpotLight.point (SpotLight.setUpVector v s)
        = PointLight.setUpVector v (SpotLight.point s) /\
      same_angles (SpotLight.setUpVector v s)) /\
     (SpotLight.point (SpotLight.setSourceRadius r s)
        = PointLight.setSourceRadius r (SpotLight.point s) /\
      same_angles (SpotLight.setSourceRadius r s)) /\
     (SpotLight.point (SpotLight.setSourceLength r s)
        = PointLight.setSourceLength r (SpotLight.point s) /\
      same_angles (SpotLight.setSourceLength r s)) /\
     (SpotLight.point (SpotLight.move move_body pos target up s)
        = move_body pos target up (SpotLight.point s) /\
      same_angles (SpotLight.move move_body pos target up s))) /\
  (forall s,
     SpotLight.getPosition s = PointLight.getPosition (SpotLight.point s) /\
     SpotLight.getAttenuationRadius s
       = PointLight.getAttenuationRadius (SpotLight.point s) /\
     SpotLight.getUpVector s = PointLight.getUpVector (SpotLight.point s) /\
     SpotLight.getSourceRadius s = PointLight.getSourceRadius (SpotLight.point s) /\
     SpotLight.getSourceLength s = PointLight.getSourceLength (SpotLight.point s)).
Proof.
  split; [reflexivity |].
  split; [reflexivity |].
  split.
  { unfold inheritedFromPoint. repeat (constructor; [reflexivity |]). constructor. }
  split; [reflexivity |].
  split; [intros m; reflexivity |].
  split.
  { intros c m E. unfold definingClass in E.
    destruct (lookupFrom_found _ _ _ _ E) as [d Found].
    discriminate Found. }
  split.
  - intros s pos target up v r same_angles; subst same_angles; cbv beta.
    repeat split; reflexivity.
  - intros s; repeat split; reflexivity.
Qed.

End Hierarchy.

(** ** Setters and getters *)

Section RoundTrips.
Context `{Host}.

(** C8. A getter returns exactly what the setter was given: the direction
    (any vector, unit length or not), the position, the attenuation radius
    and the name; the same holds for the other point-light members and on
    a spot light. *)
Theorem C8_setter_getter_round_trips :
  (forall d l, Light.getDirection (Light.setDirection d l) = d) /\
  (forall pos p, PointLight.getPosition (PointLight.setPosition pos p) = pos) /\
  (forall r p,
     PointLight.getAttenuationRadius (PointLight.setAttenuationRadius r p) = r) /\
  (forall n l, Light.getName (Light.setName n l) = n) /\
  (forall up p, PointLight.getUpVector (PointLight.setUpVector up p) = up) /\
  (forall r p, PointLight.getSourceRadius (PointLight.setSourceRadius r p) = r) /\
  (forall r p, PointLight.getSourceLength (PointLight.setSourceLength r p) = r) /\
  (forall d p, PointLight.getDirection (PointLight.setDirection d p) = d) /\
  (forall n p, PointLight.getName (PointLight.setName n p) = n) /\
  (forall d s, SpotLight.getDirection (SpotLight.setDirection d s) = d) /\
  (forall pos s, SpotLight.getPosition (SpotLight.setPosition pos s) = pos) /\
  (forall r s,
     SpotLight.getAttenuationRadius (SpotLight.setAttenuationRadius r s) = r) /\
  (forall n s, SpotLight.getName (SpotLight.setName n s) = n).
Proof.
  repeat (split; [intros; reflexivity |]).
  intros; reflexivity.
Qed.

Lemma changesOnly_intro (f : Field) (d d' : LightData) :
  (forall g, g <> f -> sameField g d d') -> changesOnly f d d'.
Proof. intros A; exact A. Qed.

Ltac frame_of_setter :=
  split;
  [ apply changesOnly_intro; intros g Ng;
    destruct g; try reflexivity; exfalso; apply Ng; reflexivity
  | repeat split; reflexivity ].

(** C9. [setDirection] changes [mData.dirW] and nothing else: every other
    member of the block, and the transform, name, colour and intensity of
    the light, are as before.  Likewise [setPosition] changes only
    [mData.posW], [setUpVector] only [mData.upW], [setAttenuationRadius]
    only [mData.attenuationRadius], [setSourceRadius] only
    [mData.sourceRadius] and [setSourceLength] only [mData.sourceLength]. *)
Theorem C9_plain_setters_change_one_field :
  (forall d l,
     changesOnly F_dirW (Light.mData l) (Light.mData (Light.setDirection d l)) /\
     sameOutsideData l (Light.setDirection d l)) /\
  (forall v p,
     changesOnly F_posW (PointLight.mData p)
       (PointLight.mData (PointLight.setPosition v p)) /\
     sameOutsideData (PointLight.light p)
       (PointLight.light (PointLight.setPosition v p))) /\
  (forall v p,
     changesOnly F_upW (PointLight.mData p)
       (PointLight.mData (PointLight.setUpVector v p)) /\
     sameOutsideData (PointLight.light p)
       (PointLight.light (PointLight.setUpVector v p))) /\
  (forall r p,
     changesOnly F_attenuationRadius (PointLight.mData p)
       (PointLight.mData (PointLight.setAttenuationRadius r p)) /\
     sameOutsideData (PointLight.light p)
       (PointLight.light (PointLight.setAttenuationRadius r p))) /\
  (forall r p,
     changesOnly F_sourceRadius (PointLight.mData p)
       (PointLight.mData (PointLight.setSourceRadius r p)) /\
     sameOutsideData (PointLight.light p)
       (PointLight.light (PointLight.setSourceRadius r p))) /\
  (forall r p,
     changesOnly F_sourceLength (PointLight.mData p)
       (PointLight.mData (PointLight.setSourceLength r p)) /\
     sameOutsideData (PointLight.light p)
       (PointLight.light (PointLight.setSourceLength r p))).
Proof.
  split; [| split; [| split; [| split; [| split]]]]; intros x y; frame_of_setter.
Qed.

End RoundTrips.

(** ** Construction *)

Section Construction.
Context `{Host}.


End Construction.

(** The cone angles a spot light starts with are ordered: 0 <= 45 in
    binary32 comparison. *)
Lemma initial_cone_angles_ordered `{Host} (point0 : PointLight.t) :
  F32.leb (SpotLight.getInnerConeAngle (SpotLight.initial point0))
          (SpotLight.getOuterConeAngle (SpotLight.initial point0)) = true.
Proof. reflexivity. Qed.

(** * More on the inline members *)

(** ** What the colour setters and [setName] leave alone *)

Section MoreFrames.
Context `{Host}.

Ltac only_field_changes :=
  split;
  [ intros g Ng; destruct g; try reflexivity; exfalso; apply Ng; reflexivity
  | repeat split; reflexivity ].

(** [setIntensity] changes [mIntensity] and [mData.lightColor] only,
    [setColor] changes [mColor] and [mData.lightColor] only, and [setName]
    changes [mName] only: the GPU block is the same block after it. *)
Theorem color_and_name_setters_frame :
  (forall i l,
     changesOnly F_lightColor (Light.mData l) (Light.mData (Light.setIntensity i l)) /\
     Light.transform (Light.setIntensity i l) = Light.transform l /\
     Light.getName (Light.setIntensity i l) = Light.getName l /\
     Light.getColor (Light.setIntensity i l) = Light.getColor l) /\
  (forall c l,
     changesOnly F_lightColor (Light.mData l) (Light.mData (Light.setColor c l)) /\
     Light.transform (Light.setColor c l) = Light.transform l /\
     Light.getName (Light.setColor c l) = Light.getName l /\
     Light.getIntensity (Light.setColor c l) = Light.getIntensity l) /\
  (forall n l,
     Light.getData (Light.setName n l) = Light.getData l /\
     Light.transform (Light.setName n l) = Light.transform l /\
     Light.getColor (Light.setName n l) = Light.getColor l /\
     Light.getIntensity (Light.setName n l) = Light.getIntensity l).
Proof.
  split; [| split].
  - intros i l; only_field_changes.
  - intros c l; only_field_changes.
  - intros n l; repeat split; reflexivity.
Qed.

(** ** How calls compose *)

(** The last call of a setter decides: a call followed by a call of the
    same setter leaves the light as the second call alone does. *)
Theorem last_setter_call_wins (a b : PointOp) (p : PointLight.t) :
  sameSetter a b = true ->
  Point_call b (Point_call a p) = Point_call b p.
Proof.
  destruct a as [[i | c | d | n] | | | r | v | v | r | r];
    destruct b as [[i' | c' | d' | n'] | | | r' | v' | v' | r' | r'];
    simpl; intros E; try discriminate E; reflexivity.
Qed.

(** Calls of two different setters, or with a hook among them, can be
    swapped: the light ends in the same state.  This includes
    [setIntensity] and [setColor], which both assign [mData.lightColor]. *)
Theorem different_setters_commute (a b : PointOp) (p : PointLight.t) :
  sameSetter a b = false ->
  Point_call a (Point_call b p) = Point_call b (Point_call a p).
Proof.
  destruct a as [[i | c | d | n] | | | r | v | v | r | r];
    destruct b as [[i' | c' | d' | n'] | | | r' | v' | v' | r' | r'];
    simpl; intros E; try discriminate E; reflexivity.
Qed.

(** ** Frames of sequences *)

Lemma sameField_refl (f : Field) (d : LightData) : sameField f d d.
Proof. destruct f; reflexivity. Qed.

Lemma sameField_trans (f : Field) (d1 d2 d3 : LightData) :
  sameField f d1 d2 -> sameField f d2 d3 -> sameField f d1 d3.
Proof. destruct f; simpl; intros E1 E2; rewrite E2; exact E1. Qed.

Lemma memberSame_refl (m : Member) (l : Light.t) : memberSame m l l.
Proof. destruct m; simpl; try reflexivity; apply sameField_refl. Qed.

Lemma memberSame_trans (m : Member) (l1 l2 l3 : Light.t) :
  memberSame m l1 l2 -> memberSame m l2 l3 -> memberSame m l1 l3.
Proof.
  destruct m; simpl; try (intros E1 E2; rewrite E2; exact E1).
  apply sameField_trans.
Qed.

Lemma Point_call_frame (o : PointOp) (m : Member) (p : PointLight.t) :
  PointOp_touches o m = false ->
  memberSame m (PointLight.light p) (PointLight.light (Point_call o p)).
Proof.
  destruct o as [[i | c | d | n] | | | r | v | v | r | r];
    destruct m as [ | | | | f]; try destruct f;
    simpl; intros E; try discriminate E; reflexivity.
Qed.

Lemma Point_run_frame (ops : list PointOp) (m : Member) (p : PointLight.t) :
  forallb (fun o => negb (PointOp_touches o m)) ops = true ->
  memberSame m (PointLight.light p) (PointLight.light (run Point_call ops p)).
Proof.
  revert p; induction ops as [| o ops IH]; intros p A; simpl in A.
  - apply memberSame_refl.
  - apply andb_prop in A; destruct A as [Ao Aops].
    rewrite run_cons.
    apply memberSame_trans with (l2 := PointLight.light (Point_call o p)).
    + apply Point_call_frame, negb_true_iff, Ao.
    + apply IH, Aops.
Qed.

(** A member that no call of a sequence assigns is, after the sequence,
    what it was before it. *)
Theorem unassigned_member_survives (ops : list PointOp) (m : Member) (p : PointLight.t) :
  forallb (fun o => negb (PointOp_touches o m)) ops = true ->
  memberSame m (PointLight.light p) (PointLight.light (run Point_call ops p)).
Proof. apply Point_run_frame. Qed.

Lemma never_touched (m : Member) (ops : list PointOp) :
  (forall o, PointOp_touches o m = false) ->
  forallb (fun o => negb (PointOp_touches o m)) ops = true.
Proof.
  intros N; apply forallb_forall; intros o _; rewrite N; reflexivity.
Qed.

(** No inline mutator changes the light's type, its cone attenuation
    factors, the block members the header never names, or the [Transform]
    subobject: they are the same after every sequence of calls on a point
    light; on a spot light the same sequence also leaves the two cone
    angles alone. *)
Theorem inline_calls_never_change :
  (forall ops p,
     let p' := run Point_call ops p in
     Light.getType (PointLight.light p') = Light.getType (PointLight.light p) /\
     coneFactors (PointLight.getData p') = coneFactors (PointLight.getData p) /\
     rest (PointLight.getData p') = rest (PointLight.getData p) /\
     Light.transform (PointLight.light p') = Light.transform (PointLight.light p)) /\
  (forall ops s,
     let s' := run Spot_call ops s in
     SpotLight.getInnerConeAngle s' = SpotLight.getInnerConeAngle s /\
     SpotLight.getOuterConeAngle s' = SpotLight.getOuterConeAngle s /\
     SpotLight.point s' = run Point_call ops (SpotLight.point s)).
Proof.
  split.
  - intros ops p p'; subst p'.
    assert (F : forall m, (forall o, PointOp_touches o m = false) ->
                memberSame m (PointLight.light p)
                  (PointLight.light (run Point_call ops p))).
    { intros m N; apply Point_run_frame, never_touched, N. }
    split; [| split; [| split]].
    + apply (F (M_data F_type)); intros [[] | | | | | | | ]; reflexivity.
    + apply (F (M_data F_coneFactors)); intros [[] | | | | | | | ]; reflexivity.
    + apply (F (M_data F_rest)); intros [[] | | | | | | | ]; reflexivity.
    + apply (F M_transform); intros [[] | | | | | | | ]; reflexivity.
  - intros ops; induction ops as [| o ops IH]; intros s s'; subst s'.
    + repeat split; reflexivity.
    + rewrite !run_cons.
      destruct (IH (Spot_call o s)) as (Ei & Eo & Ep).
      rewrite Ei, Eo, Ep. repeat split; reflexivity.
Qed.

End MoreFrames.

(** On the sample point light: a second [setPosition] overrides the first. *)
Lemma last_setter_call_wins_witness :
  @Point_call sampleHost (SetPosition (vec3_splat F32.one))
     (@Point_call sampleHost (SetPosition (vec3_splat (F32.of_Z 7))) samplePoint)
    = @Point_call sampleHost (SetPosition (vec3_splat F32.one)) samplePoint.
Proof.
  apply (@last_setter_call_wins sampleHost).
  reflexivity.
Defined.

(** On the sample point light: [setIntensity(3)] and [setColor] in either
    order. *)
Lemma different_setters_commute_witness :
  @Point_call sampleHost (PtLight (SetIntensity (F32.of_Z 3)))
     (@Point_call sampleHost (PtLight (SetColor (mkVec3 F32.one F32.zero F32.one)))
        samplePoint)
    = @Point_call sampleHost (PtLight (SetColor (mkVec3 F32.one F32.zero F32.one)))
        (@Point_call sampleHost (PtLight (SetIntensity (F32.of_Z 3))) samplePoint).
Proof.
  apply (@different_setters_commute sampleHost).
  reflexivity.
Defined.

(** On the sample point light: the direction survives a sequence that sets
    intensity, position and name. *)
Lemma unassigned_member_survives_witness :
  @memberSame sampleHost (M_data F_dirW) sampleLight
    (@PointLight.light sampleHost
       (run (@Point_call sampleHost)
          [ PtLight (SetIntensity (F32.of_Z 3));
            SetPosition (vec3_splat F32.one);
            PtPrepareGPUData;
            PtLight (SetName "key"%string) ]
          samplePoint)).
Proof.
  apply (@unassigned_member_survives sampleHost
           [ PtLight (SetIntensity (F32.of_Z 3));
             SetPosition (vec3_splat F32.one);
             PtPrepareGPUData;
             PtLight (SetName "key"%string) ]
           (M_data F_dirW) samplePoint).
  reflexivity.
Defined.

(** ** The GPU colour at particular intensities *)

(** Multiplying a mantissa by 2^23 adds 23 binary digits. *)
Lemma digits2_shift23 (m : positive) :
  Zpos (digits2_pos (m * 8388608)) = Zpos (digits2_pos m) + 23.
Proof.
  rewrite Pos.mul_comm. cbn [Pos.mul digits2_pos].
  rewrite !Pos2Z.inj_succ. lia.
Qed.

(** Shifting those 23 digits out again loses nothing. *)
Lemma shr_23_exact (m : positive) (e : Z) :
  shr (Build_shr_record (Zpos (m * 8388608)) false false) e 23
    = (Build_shr_record (Zpos m) false false, e + 23).
Proof. rewrite Pos.mul_comm. reflexivity. Qed.

(** The product of a representable value with a mantissa of 2^23 at
    exponent -23 rounds to the value itself. *)
Lemma round_times_unit (s : bool) (m : positive) (e : Z) :
  bounded F32.prec F32.emax m e = true ->
  binary_round_aux F32.prec F32.emax s (Zpos (m * 8388608)) (e + -23) loc_Exact
    = S754_finite s m e.
Proof.
  unfold bounded, canonical_mantissa. intros B.
  apply andb_prop in B. destruct B as [Canon Range].
  apply Z.eqb_eq in Canon.
  unfold binary_round_aux, shr_fexp.
  cbn [Zdigits2 shr_record_of_loc].
  rewrite digits2_shift23.
  replace (Z.pos (digits2_pos m) + 23 + (e + -23))
    with (Z.pos (digits2_pos m) + e) by lia.
  rewrite Canon.
  replace (e - (e + -23)) with 23 by lia.
  rewrite shr_23_exact.
  cbn [shr_m loc_of_shr_record round_nearest_even Zdigits2 shr_record_of_loc].
  replace (e + -23 + 23) with e by lia.
  rewrite Canon, Z.sub_diag. cbn [shr shr_m].
  rewrite Range. reflexivity.
Qed.

Lemma mul_one_r (x : float) : float_valid x = true -> F32.mul x F32.one = x.
Proof.
  intros V. change F32.one with (S754_finite false 8388608 (-23)).
  destruct x as [s | s | | s m e]; unfold F32.mul; cbn [SFmul].
  - destruct s; reflexivity.
  - destruct s; reflexivity.
  - reflexivity.
  - rewrite (round_times_unit _ m e V). destruct s; reflexivity.
Qed.

Lemma mul_minus_one_r (x : float) :
  float_valid x = true -> F32.mul x (F32.of_Z (-1)) = SFopp x.
Proof.
  intros V. change (F32.of_Z (-1)) with (S754_finite true 8388608 (-23)).
  destruct x as [s | s | | s m e]; unfold F32.mul; cbn [SFmul SFopp].
  - destruct s; reflexivity.
  - destruct s; reflexivity.
  - reflexivity.
  - rewrite (round_times_unit _ m e V). destruct s; reflexivity.
Qed.

Lemma vec3_forall_components (P : float -> bool) (v : vec3) :
  vec3_forall P v = true -> P (vx v) = true /\ P (vy v) = true /\ P (vz v) = true.
Proof.
  unfold vec3_forall; intros A.
  apply andb_prop in A; destruct A as [A Az].
  apply andb_prop in A; destruct A as [Ax Ay].
  auto.
Qed.

Lemma float_number_valid (x : float) :
  float_number x = true -> float_valid x = true.
Proof. destruct x; simpl; intros N; [reflexivity | reflexivity | discriminate N | exact N]. Qed.

Lemma vec3_numbers_valid (c : vec3) :
  vec3_forall float_number c = true -> vec3_forall float_valid c = true.
Proof.
  intros N; destruct (vec3_forall_components _ _ N) as (Nx & Ny & Nz).
  unfold vec3_forall.
  rewrite (float_number_valid _ Nx), (float_number_valid _ Ny), (float_number_valid _ Nz).
  reflexivity.
Qed.

Lemma vec3_scale_one (c : vec3) :
  vec3_forall float_valid c = true -> vec3_scale c F32.one = c.
Proof.
  intros V; destruct (vec3_forall_components _ _ V) as (Vx & Vy & Vz).
  destruct c as [x y z]; unfold vec3_scale; simpl in *.
  rewrite (mul_one_r x Vx), (mul_one_r y Vy), (mul_one_r z Vz); reflexivity.
Qed.

Section ParticularIntensities.
Context `{Host}.

(** At intensity 1 the GPU colour is the modulation colour, bit for bit,
    for every colour whose components are binary32 numbers (zeros,
    infinities and finite values, but no NaN): after [setIntensity(1.0f)]
    on a light of colour [c], and after [setColor(c)] on a light as
    [Light() = default] leaves it, whose intensity is the default 1. *)
Theorem unit_intensity_copies_color (c : vec3) :
  vec3_forall float_number c = true ->
  (forall l,
     lightColor (Light.getData (Light.setIntensity F32.one (Light.setColor c l))) = c) /\
  (forall transform0 data0,
     lightColor (Light.getData (Light.setColor c (Light.default transform0 data0))) = c).
Proof.
  intros N; split; intros; simpl; apply vec3_scale_one, vec3_numbers_valid, N.
Qed.

(** At intensity -1 the GPU colour is the modulation colour with the sign
    of every component flipped, for every colour whose components are
    binary32 numbers (zeros, infinities and finite values, but no NaN). *)
Theorem minus_unit_intensity_negates_color (c : vec3) (l : Light.t) :
  vec3_forall float_number c = true ->
  lightColor (Light.getData (Light.setIntensity (F32.of_Z (-1)) (Light.setColor c l)))
    = vec3_map SFopp c.
Proof.
  intros N.
  destruct (vec3_forall_components _ _ (vec3_numbers_valid _ N)) as (Vx & Vy & Vz).
  change (lightColor (Light.getData
            (Light.setIntensity (F32.of_Z (-1)) (Light.setColor c l))))
    with (vec3_scale c (F32.of_Z (-1))).
  destruct c as [x y z]; unfold vec3_scale, vec3_map; cbn [vx vy vz] in *.
  rewrite (mul_minus_one_r x Vx), (mul_minus_one_r y Vy), (mul_minus_one_r z Vz).
  reflexivity.
Qed.

(** At intensity 0 a component of the GPU colour is a zero with the sign
    of the colour component when that component is finite, and a NaN when
    it is an infinity or a NaN: the light is not black then. *)
Theorem zero_intensity_color (l : Light.t) :
  lightColor (Light.getData (Light.setIntensity F32.zero l))
    = vec3_map (fun x => if float_finite x then S754_zero (float_sign x) else S754_nan)
        (Light.getColor l).
Proof.
  destruct l as [tr n [x y z] i d]; simpl. unfold vec3_scale, vec3_map; simpl.
  change F32.zero with (S754_zero false). unfold F32.mul.
  destruct x as [[|] | [|] | | [|] ? ?], y as [[|] | [|] | | [|] ? ?],
           z as [[|] | [|] | | [|] ? ?]; reflexivity.
Qed.

(** A NaN is passed on to the GPU: a NaN intensity makes every component
    of the GPU colour a NaN whatever the colour, and a NaN colour component
    stays a NaN whatever the intensity. *)
Theorem nan_reaches_gpu_color :
  (forall l,
     lightColor (Light.getData (Light.setIntensity S754_nan l)) = vec3_splat S754_nan) /\
  (forall y z l,
     vx (lightColor (Light.getData (Light.setColor (mkVec3 S754_nan y z) l)))
       = S754_nan) /\
  (forall x z l,
     vy (lightColor (Light.getData (Light.setColor (mkVec3 x S754_nan z) l)))
       = S754_nan) /\
  (forall x y l,
     vz (lightColor (Light.getData (Light.setColor (mkVec3 x y S754_nan) l)))
       = S754_nan).
Proof.
  split; [| split; [| split]].
  - intros [tr n [x y z] i d]; simpl. unfold vec3_scale, vec3_splat, F32.mul; simpl.
    destruct x, y, z; reflexivity.
  - intros; reflexivity.
  - intros; reflexivity.
  - intros; reflexivity.
Qed.

(** ** The hooks of a spot light *)

(** [SpotLight] declares neither [prepareGPUData] nor [unloadGPUData]: a
    spot light runs the empty bodies of [PointLight], and either call
    leaves it, cone angles included, as it was. *)
Theorem spot_light_hooks_change_nothing :
  definingClass Class_SpotLight "prepareGPUData" = Some Class_PointLight /\
  definingClass Class_SpotLight "unloadGPUData" = Some Class_PointLight /\
  (forall s : SpotLight.t,
     SpotLight.prepareGPUData s = s /\ SpotLight.unloadGPUData s = s).
Proof.
  split; [reflexivity |].
  split; [reflexivity |].
  intros [p i o]; split; reflexivity.
Qed.

End ParticularIntensities.

(** Intensity 1 on the colour (inf, -0, 2). *)
Lemma unit_intensity_witness :
  lightColor (@Light.getData sampleHost
     (@Light.setIntensity sampleHost F32.one
        (@Light.setColor sampleHost edgeColor sampleLight))) = edgeColor.
Proof.
  apply (proj1 (@unit_intensity_copies_color sampleHost edgeColor eq_refl)).
Defined.

(** Intensity -1 on the colour (inf, -0, 2). *)
Lemma minus_unit_intensity_witness :
  lightColor (@Light.getData sampleHost
     (@Light.setIntensity sampleHost (F32.of_Z (-1))
        (@Light.setColor sampleHost edgeColor sampleLight)))
    = mkVec3 (S754_infinity true) (S754_zero false) (F32.of_Z (-2)).
Proof.
  apply (@minus_unit_intensity_negates_color sampleHost edgeColor sampleLight eq_refl).
Defined.

(** ** The GPU colour of a light as constructed *)

Section ConstructedColour.
Context `{Host}.

(** [Light() = default] runs no [updateLightColor]: the light it leaves
    satisfies [mData.lightColor == mColor * mIntensity] exactly when the
    block it is constructed over holds the colour (1, 1, 1); when it does,
    the equation holds after every sequence of the inline [Light]
    mutators. *)
Theorem constructed_light_colour (transform0 : Transform) (data0 : LightData) :
  (colorDerived (Light.default transform0 data0) <->
   lightColor data0 = mkVec3 F32.one F32.one F32.one) /\
  (lightColor data0 = mkVec3 F32.one F32.one F32.one ->
   forall ops, colorDerived (run Light_call ops (Light.default transform0 data0))).
Proof.
  assert (Start : colorDerived (Light.default transform0 data0) <->
                  lightColor data0 = mkVec3 F32.one F32.one F32.one).
  { unfold colorDerived; simpl.
    change (vec3_scale (vec3_splat F32.one) F32.one)
      with (mkVec3 F32.one F32.one F32.one).
    split; intros E; exact E. }
  split; [exact Start |].
  intros E ops.
  apply (run_invariant Light_call colorDerived Light_call_preserves).
  apply Start, E.
Qed.

End ConstructedColour.

(** The sample light is constructed over a block of colour (1, 1, 1); a
    block of colour (0, 0, 0) gives a light whose equation fails. *)
Lemma constructed_light_colour_witness :
  @colorDerived sampleHost
    (run (@Light_call sampleHost)
       [SetDirection (vec3_splat F32.one); SetName "fill"%string]
       (@Light.default sampleHost tt sampleData)) /\
  ~ @colorDerived sampleHost
      (@Light.default sampleHost tt
         (@set_lightColor sampleHost (vec3_splat F32.zero) sampleData)).
Proof.
  split.
  - apply (proj2 (@constructed_light_colour sampleHost tt sampleData)).
    reflexivity.
  - intros D.
    apply (proj1 (proj1 (@constructed_light_colour sampleHost tt
             (@set_lightColor sampleHost (vec3_splat F32.zero) sampleData)))) in D.
    discriminate D.
Defined.
